(** * Prompt-to-landing generator and diagnostic probe of [main.py]

    A shallow embedding of the two handlers of [main.py] that carry logic,
    [generate] and [test_database], together with the Python [str] methods
    they call.

    Representation.  A Python [str] is modelled as a [string] of 8-bit
    characters.  Codes 0..127 are the ASCII code points and the [str]
    methods below follow CPython on them ([isspace], [lower], [title],
    [strip], [split], [replace], [join], [in]).  A code of 128 and above
    stands for a code point that is neither cased nor white space (a string
    literal of the source that holds such a code point is kept as its
    UTF-8 bytes): the methods leave it as it is.  Case mappings and white
    space of Unicode outside ASCII are outside the model. *)

From Stdlib Require Import Strings.String Strings.Ascii Lists.List Bool.Bool
  Arith.PeanoNat NArith.NArith ZArith.ZArith micromega.Lia
  Numbers.DecimalString Numbers.DecimalN.
Import ListNotations.

Local Open Scope string_scope.
Local Open Scope list_scope.

(** ** Python [str] primitives *)

Module PyStr.

(** Characters by code. *)
Definition chr (n : N) : ascii := ascii_of_N n.
Definition ord (c : ascii) : N := N_of_ascii c.

Definition TAB : ascii := chr 9.
Definition LF : ascii := chr 10.

(** [c.isspace()] on ASCII: 0x09..0x0D, 0x1C..0x1F and 0x20. *)
Definition isspace (c : ascii) : bool :=
  let n := ord c in
  ((9 <=? n) && (n <=? 13) || (28 <=? n) && (n <=? 32))%N.

Definition isupper (c : ascii) : bool :=
  let n := ord c in ((65 <=? n) && (n <=? 90))%N.

Definition islower (c : ascii) : bool :=
  let n := ord c in ((97 <=? n) && (n <=? 122))%N.

Definition iscased (c : ascii) : bool := isupper c || islower c.

Definition tolower (c : ascii) : ascii :=
  if isupper c then chr (ord c + 32) else c.

Definition toupper (c : ascii) : ascii :=
  if islower c then chr (ord c - 32) else c.

(** [s.lower()] *)
Fixpoint lower (s : string) : string :=
  match s with
  | EmptyString => EmptyString
  | String c s' => String (tolower c) (lower s')
  end.

(** [s.lstrip()], [s.rstrip()] and [s.strip()] with no argument: white
    space is removed at both ends. *)
Fixpoint lstrip (s : string) : string :=
  match s with
  | EmptyString => EmptyString
  | String c s' => if isspace c then lstrip s' else s
  end.

Fixpoint rstrip (s : string) : string :=
  match s with
  | EmptyString => EmptyString
  | String c s' =>
      match rstrip s' with
      | EmptyString => if isspace c then EmptyString else String c EmptyString
      | r => String c r
      end
  end.

Definition strip (s : string) : string := rstrip (lstrip s).

(** [s.replace(a, b)] for one-character [a] and [b]. *)
Fixpoint replace (a b : ascii) (s : string) : string :=
  match s with
  | EmptyString => EmptyString
  | String c s' => String (if Ascii.eqb c a then b else c) (replace a b s')
  end.

(** [s.split(sep)] for a one-character separator: every occurrence cuts,
    so neighbouring separators give empty pieces and the empty string gives
    one empty piece. *)
Fixpoint split (sep : ascii) (s : string) : list string :=
  match s with
  | EmptyString => [EmptyString]
  | String c s' =>
      if Ascii.eqb c sep then EmptyString :: split sep s'
      else match split sep s' with
           | [] => [String c EmptyString]
           | t :: ts => String c t :: ts
           end
  end.

(** [sep.join(parts)] *)
Definition join (sep : string) (parts : list string) : string :=
  String.concat sep parts.

(** [k in s]: [k] occurs in [s] as a contiguous substring. *)
Fixpoint contains (k s : string) : bool :=
  String.prefix k s ||
  match s with
  | EmptyString => false
  | String _ s' => contains k s'
  end.

(** [s.title()]: a character that follows a cased character is lowered,
    any other is put in title case (upper case, on ASCII). *)
Fixpoint title_from (previous_is_cased : bool) (s : string) : string :=
  match s with
  | EmptyString => EmptyString
  | String c s' =>
      String (if previous_is_cased then tolower c else toupper c)
             (title_from (iscased c) s')
  end.

Definition title (s : string) : string := title_from false s.

(** Truthiness of a [str]: non-empty. *)
Definition truthy (s : string) : bool :=
  match s with EmptyString => false | _ => true end.

(** [a or b] on strings. *)
Definition or_else (a b : string) : string := if truthy a then a else b.

(** [xs[:n]] for a string. *)
Definition take (n : nat) (s : string) : string := String.substring 0 n s.

(** [a] is an initial segment of [b]. *)
Definition prefix_of (a b : string) : Prop := exists rest, b = (a ++ rest)%string.

(** [any(k in s for k in ks)] *)
Definition any_in (s : string) (ks : list string) : bool :=
  existsb (fun k => contains k s) ks.

(** [list(dict.fromkeys(xs))]: duplicates dropped, first occurrences kept in
    order. *)
Fixpoint fromkeys_from (seen xs : list string) : list string :=
  match xs with
  | [] => []
  | x :: xs' =>
      if existsb (String.eqb x) seen then fromkeys_from seen xs'
      else x :: fromkeys_from (seen ++ [x]) xs'
  end.

Definition fromkeys (xs : list string) : list string := fromkeys_from [] xs.

End PyStr.

(** ** The generator: [generate] *)

Record GenerateRequest := { prompt : string }.

Record Hero := { hero_title : string; hero_subtitle : string; hero_cta : string }.
Record Features := { items : list string }.
Record Cta := { cta_title : string; cta_button : string }.
Record Page := { hero : Hero; features : Features; cta : Cta }.
Record GenerateResponse := { data : Page; themeId : string }.

(** The closure [add_feat] of [generate], with the list it appends to made
    an argument. *)
Definition add_feat (text : string) (feature_bank : list string) : list string :=
  if PyStr.truthy text && negb (existsb (String.eqb text) feature_bank)
  then feature_bank ++ [text]
  else feature_bank.

(** The local variables of [generate] when it reaches its [return]. *)
Record Locals := {
  l_prompt : string;
  l_lower : string;
  l_theme : string;
  l_tokens : list string;
  l_name : string;
  l_feature_bank : list string;
  l_subtitle_bits : list string;
  l_subtitle : string
}.

Definition fintech_keys := ["bank"; "fintech"; "saas"; "analytics"; "ai"; "ml"].
Definition sunset_keys :=
  ["sunset"; "creative"; "design"; "marketing"; "brand"; "portfolio"].
Definition mint_keys := ["health"; "calm"; "wellness"; "eco"; "green"; "garden"].

Definition ai_keys := ["ai"; "ml"; "gpt"; "chat"].
Definition analytics_keys := ["analytics"; "insight"; "metric"; "dashboard"].
Definition team_keys := ["team"; "collab"; "share"].
Definition mobile_keys := ["mobile"; "ios"; "android"; "responsive"].
Definition secure_keys := ["secure"; "privacy"; "gdpr"; "auth"].
Definition api_keys := ["api"; "integrations"; "zapier"; "slack"; "notion"].

Definition ai_feat := "AI-assisted workflows that learn from your usage".
Definition analytics_feat :=
  "Real-time analytics dashboards with actionable insights".
Definition team_feat := "Team collaboration with comments and shared libraries".
Definition mobile_feat := "Responsive by default — perfect on mobile and desktop".
Definition secure_feat := "Enterprise-grade security and role-based access".
Definition api_feat := "One-click integrations with your favorite tools".

Definition default_features :=
  ["Clean, modern UI built for conversion";
   "Lightning-fast performance and SEO";
   "Effortless setup — launch in minutes"].

Definition subtitle_suffix := " platform to help you move faster".
Definition default_subtitle :=
  "A minimal landing that explains your value clearly.".
Definition title_suffix := ": launch faster with clarity".

(** The body of [generate] up to the construction of [data], statement by
    statement; an assignment rebinds the variable. *)
Definition generate_locals (req : GenerateRequest) : Locals :=
  let prompt := PyStr.strip (PyStr.or_else (prompt req) EmptyString) in
  let name := "Your Product" in
  let subtitle_bits : list string := [] in
  let theme := "fintech" in
  let lower := PyStr.lower prompt in
  let theme := if PyStr.any_in lower fintech_keys then "fintech" else theme in
  let theme := if PyStr.any_in lower sunset_keys then "sunset" else theme in
  let theme := if PyStr.any_in lower mint_keys then "mint" else theme in
  let tokens :=
    filter PyStr.truthy (PyStr.split " " (PyStr.replace PyStr.LF " " prompt)) in
  let name :=
    match tokens with
    | [] => name
    | _ =>
        let cand := PyStr.strip (PyStr.join " " (firstn 3 tokens)) in
        if PyStr.truthy cand then PyStr.title cand else name
    end in
  let feature_bank : list string := [] in
  let '(feature_bank, subtitle_bits) :=
    if PyStr.any_in lower ai_keys
    then (add_feat ai_feat feature_bank, subtitle_bits ++ ["AI-powered"])
    else (feature_bank, subtitle_bits) in
  let '(feature_bank, subtitle_bits) :=
    if PyStr.any_in lower analytics_keys
    then (add_feat analytics_feat feature_bank, subtitle_bits ++ ["analytics"])
    else (feature_bank, subtitle_bits) in
  let '(feature_bank, subtitle_bits) :=
    if PyStr.any_in lower team_keys
    then (add_feat team_feat feature_bank, subtitle_bits ++ ["collaboration"])
    else (feature_bank, subtitle_bits) in
  let feature_bank :=
    if PyStr.any_in lower mobile_keys
    then add_feat mobile_feat feature_bank else feature_bank in
  let feature_bank :=
    if PyStr.any_in lower secure_keys
    then add_feat secure_feat feature_bank else feature_bank in
  let feature_bank :=
    if PyStr.any_in lower api_keys
    then add_feat api_feat feature_bank else feature_bank in
  let feature_bank :=
    match feature_bank with
    | [] => default_features
    | _ => feature_bank
    end in
  let subtitle :=
    match subtitle_bits with
    | [] => default_subtitle
    | _ => (PyStr.join ", " (PyStr.fromkeys subtitle_bits) ++ subtitle_suffix)%string
    end in
  {| l_prompt := prompt; l_lower := lower; l_theme := theme;
     l_tokens := tokens; l_name := name; l_feature_bank := feature_bank;
     l_subtitle_bits := subtitle_bits; l_subtitle := subtitle |}.

Definition generate (req : GenerateRequest) : GenerateResponse :=
  let st := generate_locals req in
  let data :=
    {| hero := {| hero_title := (l_name st ++ title_suffix)%string;
                  hero_subtitle := l_subtitle st;
                  hero_cta := "Get Started" |};
       features := {| items := l_feature_bank st |};
       cta := {| cta_title := "Ready to launch your landing?";
                 cta_button := "Generate Page" |} |} in
  {| data := data; themeId := l_theme st |}.

(** The handler applied to a request body [{"prompt": p}]. *)
Definition gen (p : string) : GenerateResponse := generate {| prompt := p |}.

Definition tab_prompt : string := ("a b " ++ String PyStr.TAB " c")%string.

(** ** The diagnostic probe: [test_database]

    The module [database] is not part of the repository: what importing it
    and calling into it can do is an input of the model.  An outcome is a
    value or an exception derived from [Exception]; an exception derived
    from [BaseException] only (interpreter exit, keyboard interrupt) is no
    outcome of a probe and is not modelled. *)

Module Probe.

(** Exceptions, by the [except] clauses that tell them apart; [msg] is
    [str(e)]. *)
Inductive exn :=
  | ImportError (msg : string)
  | OtherException (msg : string).

Definition str (e : exn) : string :=
  match e with ImportError m => m | OtherException m => m end.

Definition is_ImportError (e : exn) : bool :=
  match e with ImportError _ => true | OtherException _ => false end.

(** The attribute [name] of [db]: absent, present, or raising when read. *)
Inductive attr :=
  | Absent
  | Raises (e : exn)
  | Present (v : string).

Record Db := {
  db_name : attr;
  list_collection_names : exn + list string
}.

(** [from database import db]: an exception, [None], or an object. *)
Definition Import := (exn + option Db)%type.

(** [os.getenv] *)
Definition Env := string -> option string.

Record Response := {
  backend : string;
  database : string;
  database_url : option string;
  database_name : option string;
  connection_status : string;
  collections : list string
}.

(** Statements over the dict [response]: the dict is threaded, and a
    statement ends normally or with a raised exception. *)
Definition M (A : Type) : Type := Response -> (exn + A) * Response.

Definition ret {A} (a : A) : M A := fun r => (inr a, r).
Definition raise {A} (e : exn) : M A := fun r => (inl e, r).
Definition bind {A B} (c : M A) (k : A -> M B) : M B :=
  fun r =>
    match c r with
    | (inl e, r') => (inl e, r')
    | (inr a, r') => k a r'
    end.

Definition lift {A} (x : exn + A) : M A :=
  match x with inl e => raise e | inr a => ret a end.

(** [try: body / except ...: handler]: [handler e] is [None] when no clause
    matches [e], which then propagates. *)
Definition try_except {A} (body : M A) (handler : exn -> option (M A)) : M A :=
  fun r =>
    match body r with
    | (inl e, r') =>
        match handler e with
        | Some h => h r'
        | None => (inl e, r')
        end
    | ok => ok
    end.

Declare Scope probe_scope.
Delimit Scope probe_scope with probe.
Notation "x <- c ;; k" := (bind c (fun x => k))
  (at level 61, c at next level, right associativity) : probe_scope.
Notation "c ;; k" := (bind c (fun _ => k))
  (at level 61, right associativity) : probe_scope.

(** Item assignments [response[key] = v]. *)
Definition set_database (v : string) : M unit :=
  fun '(Build_Response b _ u n s c) => (inr tt, Build_Response b v u n s c).

Definition set_database_url (v : string) : M unit :=
  fun '(Build_Response b d _ n s c) => (inr tt, Build_Response b d (Some v) n s c).

Definition set_database_name (v : string) : M unit :=
  fun '(Build_Response b d u _ s c) => (inr tt, Build_Response b d u (Some v) s c).

Definition set_connection_status (v : string) : M unit :=
  fun '(Build_Response b d u n _ c) => (inr tt, Build_Response b d u n v c).

Definition set_collections (v : list string) : M unit :=
  fun '(Build_Response b d u n s _) => (inr tt, Build_Response b d u n s v).

(** [hasattr(db, 'name')]: a missing attribute gives [False], any other
    exception of the attribute's getter propagates. *)
Definition hasattr_name (db : Db) : M bool :=
  match db_name db with
  | Absent => ret false
  | Raises e => raise e
  | Present _ => ret true
  end.

(** [db.name] *)
Definition get_name (db : Db) : M string :=
  match db_name db with
  | Absent => raise (OtherException "'Db' object has no attribute 'name'")
  | Raises e => raise e
  | Present v => ret v
  end.

(** Truthiness of [os.getenv(k)]: set and non-empty. *)
Definition env_truthy (getenv : Env) (k : string) : bool :=
  match getenv k with
  | Some v => PyStr.truthy v
  | None => false
  end.

Definition initial_response : Response :=
  {| backend := "✅ Running";
     database := "❌ Not Available";
     database_url := None;
     database_name := None;
     connection_status := "Not Connected";
     collections := [] |}.

Definition connected_but_error := "⚠️  Connected but Error: ".
Definition error_prefix := "❌ Error: ".

Local Open Scope probe_scope.

(** The body of [test_database] after [response] is created. *)
Definition test_database_body (import_db : Import) (getenv : Env) : M unit :=
  try_except
    (db <- lift import_db ;;
     match db with
     | Some db =>
         set_database "✅ Available" ;;
         set_database_url "✅ Configured" ;;
         n <- (h <- hasattr_name db ;;
               if h : bool then get_name db else ret "✅ Connected") ;;
         set_database_name n ;;
         set_connection_status "Connected" ;;
         try_except
           (cs <- lift (list_collection_names db) ;;
            set_collections (firstn 10 cs) ;;
            set_database "✅ Connected & Working")
           (fun e =>
              Some (set_database
                      (connected_but_error ++ PyStr.take 50 (str e))%string))
     | None => set_database "⚠️  Available but not initialized"
     end)
    (fun e =>
       if is_ImportError e
       then Some (set_database
                    "❌ Database module not found (run enable-database first)")
       else Some (set_database (error_prefix ++ PyStr.take 50 (str e))%string)) ;;
  set_database_url
    (if env_truthy getenv "DATABASE_URL" then "✅ Set" else "❌ Not Set") ;;
  set_database_name
    (if env_truthy getenv "DATABASE_NAME" then "✅ Set" else "❌ Not Set").

(** The handler: the returned [response], or the exception it lets out. *)
Definition test_database (import_db : Import) (getenv : Env) : exn + Response :=
  match test_database_body import_db getenv initial_response with
  | (inl e, _) => inl e
  | (inr _, r) => inr r
  end.

(** Readers of a handler result, for examples. *)
Definition database_of (x : exn + Response) : option string :=
  match x with inl _ => None | inr r => Some (database r) end.

Definition collections_of (x : exn + Response) : list string :=
  match x with inl _ => [] | inr r => collections r end.

End Probe.

(** ** Reference definitions used to state the properties *)

(** An exception message of 70 characters. *)
Definition long_message : string :=
  "0123456789012345678901234567890123456789012345678901234567890123456789".


(** The variable [lower] of [generate]: the trimmed prompt, lowered. *)
Definition lowered (p : string) : string := PyStr.lower (PyStr.strip p).

(** Theme precedence: mint over sunset over fintech. *)
Definition theme_by_precedence (lowered : string) : string :=
  if PyStr.any_in lowered mint_keys then "mint"
  else if PyStr.any_in lowered sunset_keys then "sunset"
  else "fintech".

(** The six feature rules in evaluation order: keyword set and feature. *)
Definition feature_rules : list (list string * string) :=
  [ (ai_keys, ai_feat); (analytics_keys, analytics_feat);
    (team_keys, team_feat); (mobile_keys, mobile_feat);
    (secure_keys, secure_feat); (api_keys, api_feat) ].

(** The three tag rules in evaluation order: keyword set and tag. *)
Definition tag_rules : list (list string * string) :=
  [ (ai_keys, "AI-powered"); (analytics_keys, "analytics");
    (team_keys, "collaboration") ].

(** What the rules whose keyword set matches contribute, in rule order. *)
Definition matched (rules : list (list string * string)) (lowered : string)
  : list string :=
  map snd (filter (fun r => PyStr.any_in lowered (fst r)) rules).

Definition any_rule_matches (rules : list (list string * string))
  (lowered : string) : bool :=
  existsb (fun r => PyStr.any_in lowered (fst r)) rules.

(** The feature list: the features of the matching rules, the default list
    when no rule matches. *)
Definition features_as_specified (lowered : string) : list string :=
  if any_rule_matches feature_rules lowered
  then matched feature_rules lowered
  else default_features.

(** Unique elements, first occurrence kept. *)
Fixpoint unique_first (xs : list string) : list string :=
  match xs with
  | [] => []
  | x :: xs' => x :: filter (fun y => negb (String.eqb x y)) (unique_first xs')
  end.

(** The tokens of a prompt: pieces of the trimmed prompt between single
    spaces, line feeds counted as spaces, empty pieces dropped. *)
Definition tokens_of (p : string) : list string :=
  filter PyStr.truthy
    (PyStr.split " " (PyStr.replace PyStr.LF " " (PyStr.strip p))).

(** The name as the specification words it: the first three tokens joined
    and title-cased. *)
Definition name_as_specified (p : string) : string :=
  match tokens_of p with
  | [] => "Your Product"
  | ts => PyStr.title (PyStr.join " " (firstn 3 ts))
  end.

(** The name with the joined candidate trimmed before title-casing. *)
Definition name_trimmed (p : string) : string :=
  match tokens_of p with
  | [] => "Your Product"
  | ts => PyStr.title (PyStr.strip (PyStr.join " " (firstn 3 ts)))
  end.

(** Sub-sequences of a list, and the sub-sequence test. *)
Fixpoint subseqs (xs : list string) : list (list string) :=
  match xs with
  | [] => [[]]
  | x :: xs' => map (cons x) (subseqs xs') ++ subseqs xs'
  end.

Fixpoint is_subseq (xs ys : list string) : bool :=
  match xs, ys with
  | [], _ => true
  | _ :: _, [] => false
  | x :: xs', y :: ys' =>
      if String.eqb x y then is_subseq xs' ys' else is_subseq xs ys'
  end.

Definition all_tags : list string := ["AI-powered"; "analytics"; "collaboration"].

Definition subtitle_of_tags (ts : list string) : string :=
  match ts with
  | [] => default_subtitle
  | _ => (PyStr.join ", " ts ++ subtitle_suffix)%string
  end.

(** The default sentence and the seven sentences of the non-empty tag
    combinations. *)
Definition subtitle_range : list string :=
  map subtitle_of_tags (subseqs all_tags).

(** A character string without white space. *)
Fixpoint spaceless (k : string) : bool :=
  match k with
  | EmptyString => true
  | String c k' => negb (PyStr.isspace c) && spaceless k'
  end.

Definition keyword_ok (k : string) : bool := PyStr.truthy k && spaceless k.

Definition starts_solid (s : string) : bool :=
  match s with
  | EmptyString => true
  | String c _ => negb (PyStr.isspace c)
  end.

(** Status strings of the probe that carry no exception message. *)
Definition fixed_statuses : list string :=
  [ "✅ Connected & Working";
    "⚠️  Available but not initialized";
    "❌ Database module not found (run enable-database first)" ].

(** A descriptive status: a fixed one, or one of the two error prefixes
    followed by at most 50 characters of the exception's message. *)
Definition descriptive (status : string) : Prop :=
  In status fixed_statuses \/
  exists e : Probe.exn,
    String.length (PyStr.take 50 (Probe.str e)) <= 50 /\
    PyStr.prefix_of (PyStr.take 50 (Probe.str e)) (Probe.str e) /\
    (status = (Probe.connected_but_error ++ PyStr.take 50 (Probe.str e))%string \/
     status = (Probe.error_prefix ++ PyStr.take 50 (Probe.str e))%string).

(** ** The entry point: the port of the server

    [port = int(os.getenv("PORT", 8000))] of the [__main__] block.  The
    conversion [int(x)] of a [str] is modelled on ASCII, like the other
    [str] operations: a code of 128 and above is taken as neither a digit
    nor white space. *)

Module Main.

(** White space that [int] skips at both ends: 0x09..0x0D and 0x20 (the
    separators 0x1C..0x1F, which [str.strip] removes, are not skipped). *)
Definition int_isspace (c : ascii) : bool :=
  let n := PyStr.ord c in ((9 <=? n) && (n <=? 13) || (n =? 32))%N.

Definition isdigit (c : ascii) : bool :=
  let n := PyStr.ord c in ((48 <=? n) && (n <=? 57))%N.

Definition digit_value (c : ascii) : Z := (Z.of_N (PyStr.ord c) - 48)%Z.

Fixpoint lskip (s : string) : string :=
  match s with
  | EmptyString => EmptyString
  | String c s' => if int_isspace c then lskip s' else s
  end.

Fixpoint rskip (s : string) : string :=
  match s with
  | EmptyString => EmptyString
  | String c s' =>
      match rskip s' with
      | EmptyString => if int_isspace c then EmptyString else String c EmptyString
      | r => String c r
      end
  end.

(** The digits of a base-10 literal, most significant first; a single
    underscore may stand between two digits. *)
Fixpoint digits (acc : Z) (after_digit : bool) (s : string) : option Z :=
  match s with
  | EmptyString => if after_digit then Some acc else None
  | String c s' =>
      if isdigit c then digits (10 * acc + digit_value c)%Z true s'
      else if Ascii.eqb c "_" && after_digit then digits acc false s'
      else None
  end.

(** [int(x)] for a [str]: [None] stands for [ValueError]. *)
Definition int_of_str (x : string) : option Z :=
  match rskip (lskip x) with
  | String "+" r => digits 0 false r
  | String "-" r => option_map Z.opp (digits 0 false r)
  | r => digits 0 false r
  end.

(** The exception of a failed conversion, with the rejected literal. *)
Inductive error := ValueError (literal : string).

(** [int(os.getenv("PORT", 8000))]: the default is the integer 8000, which
    [int] returns as it is. *)
Definition port (getenv : Probe.Env) : error + Z :=
  match getenv "PORT" with
  | None => inr 8000%Z
  | Some x =>
      match int_of_str x with
      | Some n => inr n
      | None => inl (ValueError x)
      end
  end.

(** An environment that sets [PORT] and nothing else. *)
Definition env_port (x : string) : Probe.Env :=
  fun k => if String.eqb k "PORT" then Some x else None.

(** A literal that holds white space only (or nothing). *)
Fixpoint blank (s : string) : bool :=
  match s with
  | EmptyString => true
  | String c s' => int_isspace c && blank s'
  end.


End Main.

(** ** Further reference definitions *)

(** Occurrences of a character in a string. *)
Fixpoint count_char (c : ascii) (s : string) : nat :=
  match s with
  | EmptyString => 0
  | String a s' => (if Ascii.eqb a c then 1 else 0) + count_char c s'
  end.

(** The response to a prompt without any visible character. *)
Definition blank_response : GenerateResponse :=
  {| data := {| hero := {| hero_title := "Your Product: launch faster with clarity";
                           hero_subtitle :=
                             "A minimal landing that explains your value clearly.";
                           hero_cta := "Get Started" |};
                features := {| items := default_features |};
                cta := {| cta_title := "Ready to launch your landing?";
                          cta_button := "Generate Page" |} |};
     themeId := "fintech" |}.

(** The status of a failed import of the database module. *)
Definition module_not_found : string :=
  "❌ Database module not found (run enable-database first)".

(** A field of the response of the probe, when the handler returns. *)
Definition probe_read {A : Type} (f : Probe.Response -> A)
  (x : Probe.exn + Probe.Response) : option A :=
  match x with inl _ => None | inr r => Some (f r) end.

(** The probe of an imported [db] object. *)
Definition probe_db (name : Probe.attr) (listing : Probe.exn + list string)
  : Probe.Import :=
  inr (Some {| Probe.db_name := name; Probe.list_collection_names := listing |}).


(** ** Concrete runs *)

Example strip_ex :
  PyStr.strip ("  ab c " ++ String PyStr.TAB EmptyString)%string = "ab c".
Proof. reflexivity. Qed.
Example split_ex :
  PyStr.split " " " a  b" = [EmptyString; "a"; EmptyString; "b"].
Proof. reflexivity. Qed.
Example title_ex : PyStr.title "they're hERE x1y" = "They'Re Here X1Y".
Proof. reflexivity. Qed.
Example contains_ex : PyStr.contains "ai" "a bairn" = true.
Proof. reflexivity. Qed.
Example fromkeys_ex : PyStr.fromkeys ["a";"b";"a";"c";"b"] = ["a";"b";"c"].
Proof. reflexivity. Qed.

Example probe_import_error :
  Probe.database_of
    (Probe.test_database (inl (Probe.ImportError "No module named 'database'"))
       (fun _ => None)) =
  Some "❌ Database module not found (run enable-database first)".
Proof. reflexivity. Qed.

Example probe_listing_fails :
  Probe.test_database
    (inr (Some {| Probe.db_name := Probe.Present "shop";
                  Probe.list_collection_names :=
                    inl (Probe.OtherException long_message) |}))
    (fun k => if String.eqb k "DATABASE_URL" then Some "mongodb://h" else None) =
  inr {| Probe.backend := "✅ Running";
         Probe.database :=
           "⚠️  Connected but Error: 01234567890123456789012345678901234567890123456789";
         Probe.database_url := Some "✅ Set";
         Probe.database_name := Some "❌ Not Set";
         Probe.connection_status := "Connected";
         Probe.collections := [] |}.
Proof. reflexivity. Qed.

Example probe_twelve_collections :
  Probe.collections_of
    (Probe.test_database
       (inr (Some {| Probe.db_name := Probe.Absent;
                     Probe.list_collection_names :=
                       inr ["a"; "b"; "c"; "d"; "e"; "f"; "g"; "h"; "i"; "j";
                            "k"; "l"] |}))
       (fun _ => None)) =
  ["a"; "b"; "c"; "d"; "e"; "f"; "g"; "h"; "i"; "j"].
Proof. reflexivity. Qed.

Example int_of_str_ex :
  map Main.int_of_str [" 8080 "; "+80"; "8_080"; "80 80"; "8080_"; "0x1F"; "- 5"] =
  [Some 8080%Z; Some 80%Z; Some 8080%Z; None; None; None; None].
Proof. reflexivity. Qed.

Example port_ex :
  Main.port (Main.env_port "eight") = inl (Main.ValueError "eight").
Proof. reflexivity. Qed.

Example gen_hello :
  gen "hello world" =
  {| data := {| hero := {| hero_title := "Hello World: launch faster with clarity";
                           hero_subtitle := default_subtitle;
                           hero_cta := "Get Started" |};
                features := {| items := default_features |};
                cta := {| cta_title := "Ready to launch your landing?";
                          cta_button := "Generate Page" |} |};
     themeId := "fintech" |}.
Proof. reflexivity. Qed.

(** ** Facts on the [str] primitives *)

(** A list of pairwise different string literals has no duplicates. *)
Ltac nodup_strings :=
  repeat (apply NoDup_nil ||
          (apply NoDup_cons; [simpl; intuition discriminate|])).

Module PyStrFacts.
Import PyStr.

Lemma isspace_tolower (c : ascii) : isspace (tolower c) = isspace c.
Proof. destruct c as [[] [] [] [] [] [] [] []]; reflexivity. Qed.

Lemma isspace_not_LF (c : ascii) : isspace c = false -> Ascii.eqb c LF = false.
Proof.
  intros H. destruct (Ascii.eqb_spec c LF) as [->|]; [discriminate H | easy].
Qed.

Lemma isspace_not_SPACE (c : ascii) :
  isspace c = false -> Ascii.eqb c " " = false.
Proof.
  intros H. destruct (Ascii.eqb_spec c " ") as [->|]; [discriminate H | easy].
Qed.

(** *** Trimming *)

Lemma lstrip_starts_solid (s : string) : starts_solid (lstrip s) = true.
Proof.
  induction s as [|c s IH]; simpl; [reflexivity|].
  destruct (isspace c) eqn:E; [exact IH | simpl; now rewrite E].
Qed.

Lemma lstrip_solid (s : string) : starts_solid s = true -> lstrip s = s.
Proof.
  destruct s as [|c s]; simpl; [reflexivity|].
  now destruct (isspace c).
Qed.

Lemma rstrip_cons (c : ascii) (s : string) :
  rstrip (String c s) =
  if truthy (rstrip s) || negb (isspace c) then String c (rstrip s)
  else EmptyString.
Proof. simpl. destruct (rstrip s); simpl; [now destruct (isspace c) | reflexivity]. Qed.

Lemma rstrip_starts_solid (s : string) :
  starts_solid s = true -> starts_solid (rstrip s) = true.
Proof.
  destruct s as [|c s]; [reflexivity|]. rewrite rstrip_cons.
  destruct (truthy (rstrip s) || negb (isspace c)); [easy | reflexivity].
Qed.

Lemma rstrip_idem (s : string) : rstrip (rstrip s) = rstrip s.
Proof.
  induction s as [|c s IH]; [reflexivity|].
  rewrite rstrip_cons.
  destruct (truthy (rstrip s) || negb (isspace c)) eqn:E; [|reflexivity].
  rewrite rstrip_cons, IH, E. reflexivity.
Qed.

Lemma strip_starts_solid (s : string) : starts_solid (strip s) = true.
Proof. apply rstrip_starts_solid, lstrip_starts_solid. Qed.

Lemma strip_idem (s : string) : strip (strip s) = strip s.
Proof.
  unfold strip. rewrite (lstrip_solid (rstrip (lstrip s))).
  - apply rstrip_idem.
  - apply rstrip_starts_solid, lstrip_starts_solid.
Qed.

Lemma rstrip_solid_truthy (c : ascii) (s : string) :
  isspace c = false -> truthy (rstrip (String c s)) = true.
Proof.
  intros H. rewrite rstrip_cons, H, orb_true_r. reflexivity.
Qed.

Lemma strip_solid_truthy (c : ascii) (s : string) :
  isspace c = false -> truthy (strip (String c s)) = true.
Proof.
  intros H. unfold strip. simpl lstrip. rewrite H.
  now apply rstrip_solid_truthy.
Qed.

(** *** Lowering commutes with trimming *)

Lemma lower_lstrip (s : string) : lower (lstrip s) = lstrip (lower s).
Proof.
  induction s as [|c s IH]; simpl; [reflexivity|].
  rewrite isspace_tolower. destruct (isspace c); [exact IH | reflexivity].
Qed.

Lemma truthy_lower (s : string) : truthy (lower s) = truthy s.
Proof. now destruct s. Qed.

Lemma lower_rstrip (s : string) : lower (rstrip s) = rstrip (lower s).
Proof.
  induction s as [|c s IH]; [reflexivity|].
  change (lower (String c s)) with (String (tolower c) (lower s)).
  rewrite !rstrip_cons, <- IH, truthy_lower, isspace_tolower.
  destruct (truthy (rstrip s) || negb (isspace c)); reflexivity.
Qed.

Lemma lower_strip (s : string) : lower (strip s) = strip (lower s).
Proof. unfold strip. now rewrite lower_rstrip, lower_lstrip. Qed.

(** *** Substring search and trimming *)

Lemma prefix_cons (a c : ascii) (k s : string) :
  String.prefix (String a k) (String c s) = Ascii.eqb a c && String.prefix k s.
Proof.
  simpl. destruct (ascii_dec a c) as [->|N].
  - now rewrite Ascii.eqb_refl.
  - apply Ascii.eqb_neq in N. now rewrite N.
Qed.

Lemma prefix_empty_r (k : string) :
  truthy k = true -> String.prefix k EmptyString = false.
Proof. now destruct k. Qed.

Lemma contains_cons (k : string) (c : ascii) (s : string) :
  contains k (String c s) = String.prefix k (String c s) || contains k s.
Proof. reflexivity. Qed.

Lemma contains_empty_r (k : string) :
  truthy k = true -> contains k EmptyString = false.
Proof. now destruct k. Qed.

Lemma contains_lstrip (k s : string) :
  keyword_ok k = true -> contains k (lstrip s) = contains k s.
Proof.
  intros Hk. induction s as [|c s IH]; [reflexivity|].
  simpl lstrip. destruct (isspace c) eqn:E; [|reflexivity].
  rewrite IH, contains_cons.
  destruct k as [|a k]; [discriminate Hk|].
  rewrite prefix_cons.
  destruct (Ascii.eqb_spec a c) as [->|]; [|reflexivity].
  unfold keyword_ok in Hk. simpl in Hk. now rewrite E in Hk.
Qed.

Lemma prefix_rstrip (s k : string) :
  keyword_ok k = true -> String.prefix k (rstrip s) = String.prefix k s.
Proof.
  revert k. induction s as [|c s IH]; intros k Hk; [reflexivity|].
  destruct k as [|a k]; [discriminate Hk|].
  unfold keyword_ok in Hk. simpl in Hk.
  apply andb_prop in Hk as [Ha Hk]. apply negb_true_iff in Ha.
  rewrite rstrip_cons, prefix_cons.
  destruct (Ascii.eqb_spec a c) as [<-|N].
  - rewrite Ha, orb_true_r, prefix_cons, Ascii.eqb_refl. simpl.
    destruct k as [|b k]; [now destruct (rstrip s), s|].
    apply IH. unfold keyword_ok. now rewrite Hk.
  - destruct (truthy (rstrip s) || negb (isspace c)); [|reflexivity].
    rewrite prefix_cons. apply Ascii.eqb_neq in N. now rewrite N.
Qed.

Lemma contains_rstrip (k s : string) :
  keyword_ok k = true -> contains k (rstrip s) = contains k s.
Proof.
  intros Hk. induction s as [|c s IH]; [reflexivity|].
  rewrite contains_cons, <- (prefix_rstrip (String c s) k Hk), <- IH.
  rewrite rstrip_cons.
  destruct (truthy (rstrip s) || negb (isspace c)) eqn:E; [reflexivity|].
  apply orb_false_elim in E as [E _].
  destruct (rstrip s); [|discriminate E].
  unfold keyword_ok in Hk. apply andb_prop in Hk as [Hk _].
  now rewrite contains_empty_r, prefix_empty_r.
Qed.

Lemma contains_strip (k s : string) :
  keyword_ok k = true -> contains k (strip s) = contains k s.
Proof.
  intros Hk. unfold strip. now rewrite contains_rstrip, contains_lstrip.
Qed.

Lemma any_in_strip (ks : list string) (s : string) :
  forallb keyword_ok ks = true -> any_in (strip s) ks = any_in s ks.
Proof.
  unfold any_in. induction ks as [|k ks IH]; simpl; [reflexivity|].
  intros H. apply andb_prop in H as [Hk Hks].
  now rewrite contains_strip, IH.
Qed.

(** The lowered trimmed prompt and the lowered prompt hold the same
    white-space-free keywords. *)
Lemma any_in_lower_strip (ks : list string) (p : string) :
  forallb keyword_ok ks = true ->
  any_in (lower (strip p)) ks = any_in (lower p) ks.
Proof. intros H. rewrite lower_strip. now apply any_in_strip. Qed.

End PyStrFacts.

(** ** Facts on the generator *)

Module GenFacts.
Import PyStr PyStrFacts.

Lemma or_else_empty (p : string) : or_else p EmptyString = p.
Proof. now destruct p. Qed.

Lemma locals_lower (p : string) :
  l_lower (generate_locals {| prompt := p |}) = lowered p.
Proof.
  unfold generate_locals. cbn [prompt]. rewrite or_else_empty.
  set (l := lower (strip p)).
  destruct (any_in l ai_keys), (any_in l analytics_keys), (any_in l team_keys);
    reflexivity.
Qed.

Lemma locals_theme (p : string) :
  l_theme (generate_locals {| prompt := p |}) = theme_by_precedence (lowered p).
Proof.
  unfold generate_locals, theme_by_precedence, lowered.
  cbn [prompt]. rewrite or_else_empty.
  set (l := lower (strip p)).
  destruct (any_in l ai_keys), (any_in l analytics_keys), (any_in l team_keys);
    cbn [l_theme];
    destruct (any_in l mint_keys), (any_in l sunset_keys),
      (any_in l fintech_keys); reflexivity.
Qed.

Lemma locals_tokens (p : string) :
  l_tokens (generate_locals {| prompt := p |}) = tokens_of p.
Proof.
  unfold generate_locals, tokens_of. cbn [prompt]. rewrite or_else_empty.
  set (l := lower (strip p)).
  destruct (any_in l ai_keys), (any_in l analytics_keys), (any_in l team_keys);
    reflexivity.
Qed.

Lemma locals_name (p : string) :
  l_name (generate_locals {| prompt := p |}) =
  match tokens_of p with
  | [] => "Your Product"
  | ts =>
      let cand := strip (join " " (firstn 3 ts)) in
      if truthy cand then title cand else "Your Product"
  end.
Proof.
  unfold generate_locals, tokens_of. cbn [prompt]. rewrite or_else_empty.
  set (l := lower (strip p)).
  destruct (any_in l ai_keys), (any_in l analytics_keys), (any_in l team_keys);
    cbn [l_name]; destruct (filter truthy _); reflexivity.
Qed.

Lemma locals_subtitle_bits (p : string) :
  l_subtitle_bits (generate_locals {| prompt := p |}) =
  matched tag_rules (lowered p).
Proof.
  unfold generate_locals, matched, tag_rules, lowered.
  cbn [prompt filter map fst snd]. rewrite or_else_empty.
  set (l := lower (strip p)).
  destruct (any_in l ai_keys), (any_in l analytics_keys), (any_in l team_keys);
    reflexivity.
Qed.

Lemma locals_subtitle (p : string) :
  l_subtitle (generate_locals {| prompt := p |}) =
  match matched tag_rules (lowered p) with
  | [] => default_subtitle
  | ts => (join ", " (fromkeys ts) ++ subtitle_suffix)%string
  end.
Proof.
  unfold generate_locals, matched, tag_rules, lowered.
  cbn [prompt filter map fst snd]. rewrite or_else_empty.
  set (l := lower (strip p)).
  destruct (any_in l ai_keys), (any_in l analytics_keys), (any_in l team_keys);
    reflexivity.
Qed.

(** The feature list as the rules give it: the features of the matching
    rules, or the default list when none matches. *)
Lemma locals_feature_bank (p : string) :
  l_feature_bank (generate_locals {| prompt := p |}) =
  match matched feature_rules (lowered p) with
  | [] => default_features
  | fs => fs
  end.
Proof.
  unfold generate_locals, matched, feature_rules, lowered.
  cbn [prompt filter map fst snd]. rewrite or_else_empty.
  set (l := lower (strip p)).
  destruct (any_in l ai_keys), (any_in l analytics_keys), (any_in l team_keys),
    (any_in l mobile_keys), (any_in l secure_keys), (any_in l api_keys);
    reflexivity.
Qed.

(** All keywords of the rules are non-empty and free of white space, so
    trimming the prompt does not change which of them occur. *)
Lemma keywords_ok :
  forallb (forallb keyword_ok)
    [fintech_keys; sunset_keys; mint_keys; ai_keys; analytics_keys; team_keys;
     mobile_keys; secure_keys; api_keys] = true.
Proof. reflexivity. Qed.

Lemma theme_by_precedence_strip (p : string) :
  theme_by_precedence (lowered p) = theme_by_precedence (lower p).
Proof.
  unfold theme_by_precedence, lowered.
  now rewrite !any_in_lower_strip by reflexivity.
Qed.

Lemma matched_strip (rules : list (list string * string)) (p : string) :
  forallb (fun r => forallb keyword_ok (fst r)) rules = true ->
  matched rules (lowered p) = matched rules (lower p).
Proof.
  unfold matched, lowered. intros H. f_equal.
  induction rules as [|r rules IH]; [reflexivity|].
  simpl in H. apply andb_prop in H as [Hr H].
  simpl. now rewrite any_in_lower_strip, IH.
Qed.

Lemma matched_nil_iff (rules : list (list string * string)) (l : string) :
  matched rules l = [] <-> any_rule_matches rules l = false.
Proof.
  unfold matched, any_rule_matches.
  induction rules as [|r rules IH]; simpl; [tauto|].
  destruct (any_in l (fst r)); simpl; [split; discriminate | exact IH].
Qed.

Lemma features_as_specified_eq (l : string) :
  match matched feature_rules l with
  | [] => default_features
  | fs => fs
  end = features_as_specified l.
Proof.
  unfold features_as_specified.
  destruct (any_rule_matches feature_rules l) eqn:E.
  - destruct (matched feature_rules l) eqn:M; [|reflexivity].
    apply matched_nil_iff in M. congruence.
  - apply matched_nil_iff in E. now rewrite E.
Qed.

Lemma matched_length (rules : list (list string * string)) (l : string) :
  length (matched rules l) <= length rules.
Proof.
  unfold matched. rewrite length_map.
  induction rules as [|r rules IH]; simpl; [lia|].
  destruct (any_in l (fst r)); simpl; lia.
Qed.

Lemma gen_items (p : string) :
  items (features (data (gen p))) = features_as_specified (lowered p).
Proof.
  change (items (features (data (gen p))))
    with (l_feature_bank (generate_locals {| prompt := p |})).
  now rewrite locals_feature_bank, features_as_specified_eq.
Qed.

Lemma gen_theme (p : string) :
  themeId (gen p) = theme_by_precedence (lowered p).
Proof. exact (locals_theme p). Qed.

Lemma gen_subtitle (p : string) :
  hero_subtitle (hero (data (gen p))) =
  match matched tag_rules (lowered p) with
  | [] => default_subtitle
  | ts => (join ", " (fromkeys ts) ++ subtitle_suffix)%string
  end.
Proof. exact (locals_subtitle p). Qed.

Lemma features_as_specified_strip (p : string) :
  features_as_specified (lowered p) = features_as_specified (lower p).
Proof.
  rewrite <- !features_as_specified_eq.
  now rewrite (matched_strip feature_rules p) by reflexivity.
Qed.

(** *** Tokens and the name *)

Lemma tokens_of_blank (p : string) : strip p = EmptyString -> tokens_of p = [].
Proof. unfold tokens_of. now intros ->. Qed.

Lemma split_cons_solid (c : ascii) (s : string) :
  Ascii.eqb c " " = false ->
  exists t ts, split " " (String c s) = String c t :: ts.
Proof.
  intros H. cbn [split]. rewrite H.
  destruct (split " " s) as [|t ts]; eauto.
Qed.

(** A prompt that is not blank has a first token, which starts with the
    first character of the trimmed prompt. *)
Lemma tokens_of_solid (p : string) (c : ascii) (q : string) :
  strip p = String c q ->
  isspace c = false /\ exists t ts, tokens_of p = String c t :: ts.
Proof.
  intros E. pose proof (strip_starts_solid p) as S.
  rewrite E in S. simpl in S. apply negb_true_iff in S.
  split; [exact S|].
  unfold tokens_of. rewrite E. cbn [replace].
  rewrite (isspace_not_LF c S).
  destruct (split_cons_solid c (replace LF " " q) (isspace_not_SPACE c S))
    as (t & ts & ->).
  cbn [filter truthy]. eauto.
Qed.

Lemma tokens_of_nil_iff (p : string) :
  tokens_of p = [] <-> strip p = EmptyString.
Proof.
  split; [|apply tokens_of_blank].
  destruct (strip p) as [|c q] eqn:E; [reflexivity|].
  destruct (tokens_of_solid p c q E) as (_ & t & ts & ->). discriminate.
Qed.

Lemma join_cons_head (sep : string) (c : ascii) (t : string) (ts : list string) :
  exists u, join sep (String c t :: ts) = String c u.
Proof. unfold join. simpl. destruct ts; simpl; eauto. Qed.

(** The candidate built from the tokens of a prompt is never empty, so the
    test [if cand:] of [generate] always succeeds. *)
Lemma cand_truthy (p : string) :
  tokens_of p <> [] ->
  truthy (strip (join " " (firstn 3 (tokens_of p)))) = true.
Proof.
  intros N. destruct (strip p) as [|c q] eqn:E.
  - now rewrite (tokens_of_blank p E) in N.
  - destruct (tokens_of_solid p c q E) as (S & t & ts & ->).
    change (firstn 3 (String c t :: ts)) with (String c t :: firstn 2 ts).
    destruct (join_cons_head " " c t (firstn 2 ts)) as (u & ->).
    now apply strip_solid_truthy.
Qed.

Lemma locals_name_trimmed (p : string) :
  l_name (generate_locals {| prompt := p |}) = name_trimmed p.
Proof.
  rewrite locals_name. unfold name_trimmed.
  pose proof (cand_truthy p) as T.
  destruct (tokens_of p) as [|t ts]; [reflexivity|].
  cbv zeta. rewrite T; [reflexivity | discriminate].
Qed.

(** *** [dict.fromkeys] keeps first occurrences *)

Lemma filter_both (P Q R : string -> bool) (l : list string) :
  (forall y, R y = Q y && P y) -> filter R l = filter P (filter Q l).
Proof.
  intros H. induction l as [|y l IH]; simpl; [reflexivity|].
  rewrite H. destruct (Q y); simpl; [destruct (P y)|]; now rewrite IH.
Qed.

Lemma fromkeys_from_spec (seen xs : list string) :
  fromkeys_from seen xs =
  filter (fun y => negb (existsb (String.eqb y) seen)) (unique_first xs).
Proof.
  revert seen. induction xs as [|x xs IH]; intros seen; simpl; [reflexivity|].
  destruct (existsb (String.eqb x) seen) eqn:E; simpl.
  - rewrite IH. apply filter_both. intros y.
    destruct (String.eqb_spec x y) as [<-|]; simpl; [now rewrite E | reflexivity].
  - f_equal. rewrite IH. apply filter_both. intros y.
    rewrite existsb_app. simpl. rewrite orb_false_r, negb_orb.
    now rewrite (String.eqb_sym y x), andb_comm.
Qed.

Lemma fromkeys_unique_first (xs : list string) : fromkeys xs = unique_first xs.
Proof.
  unfold fromkeys. rewrite fromkeys_from_spec. simpl.
  induction (unique_first xs) as [|y l IH]; simpl; [reflexivity|].
  now rewrite IH.
Qed.

(** *** The output read through the lowered prompt and the trimmed prompt *)

Lemma locals_by_lowered (p1 p2 : string) :
  lowered p1 = lowered p2 ->
  l_theme (generate_locals {| prompt := p1 |}) =
    l_theme (generate_locals {| prompt := p2 |}) /\
  l_feature_bank (generate_locals {| prompt := p1 |}) =
    l_feature_bank (generate_locals {| prompt := p2 |}) /\
  l_subtitle (generate_locals {| prompt := p1 |}) =
    l_subtitle (generate_locals {| prompt := p2 |}).
Proof.
  intros H.
  now rewrite !locals_theme, !locals_feature_bank, !locals_subtitle, H.
Qed.

Lemma lowered_of_lower (p1 p2 : string) :
  lower p1 = lower p2 -> lowered p1 = lowered p2.
Proof. unfold lowered. intros H. now rewrite !lower_strip, H. Qed.

End GenFacts.

(** ** The properties of the generator *)


Import PyStr PyStrFacts GenFacts.

(** C1 (as the code has it): for every prompt whose lowercased form contains
    one of "team", "collab", "share", the generator appends the feature
    "Team collaboration with comments and shared libraries" and it also
    appends the tag "collaboration" to the subtitle-tag list, so that
    "collaboration" occurs in hero.subtitle of the result. *)
Theorem C1_team_tag_appended (p : string) :
  any_in (lower p) team_keys = true ->
  In team_feat (items (features (data (gen p)))) /\
  In "collaboration" (l_subtitle_bits (generate_locals {| prompt := p |})) /\
  contains "collaboration" (hero_subtitle (hero (data (gen p)))) = true.
Proof.
  intros H. rewrite <- any_in_lower_strip in H by reflexivity.
  fold (lowered p) in H.
  rewrite gen_items, locals_subtitle_bits, gen_subtitle.
  rewrite <- features_as_specified_eq.
  unfold matched, feature_rules, tag_rules. cbn [filter map fst snd].
  rewrite H.
  destruct (any_in (lowered p) ai_keys), (any_in (lowered p) analytics_keys),
    (any_in (lowered p) mobile_keys), (any_in (lowered p) secure_keys),
    (any_in (lowered p) api_keys);
    (split; [simpl; tauto | split; [simpl; tauto | reflexivity]]).
Qed.

Lemma C1_team_tag_appended_witness :
  any_in (lower "Share with my team") team_keys = true /\
  In team_feat (items (features (data (gen "Share with my team")))) /\
  In "collaboration"
     (l_subtitle_bits (generate_locals {| prompt := "Share with my team" |})) /\
  contains "collaboration"
    (hero_subtitle (hero (data (gen "Share with my team")))) = true.
Proof.
  split; [reflexivity | apply (C1_team_tag_appended "Share with my team")].
  reflexivity.
Defined.

(** C1 as stated fails: on the prompt "team" the feature is appended, and
    the tag "collaboration" is in the subtitle-tag list and in
    hero.subtitle. *)
Lemma C1_counterexample :
  any_in (lower "team") team_keys = true /\
  In team_feat (items (features (data (gen "team")))) /\
  l_subtitle_bits (generate_locals {| prompt := "team" |}) = ["collaboration"] /\
  hero_subtitle (hero (data (gen "team"))) =
    "collaboration platform to help you move faster" /\
  contains "collaboration" (hero_subtitle (hero (data (gen "team")))) = true.
Proof. repeat split; try reflexivity. simpl. tauto. Qed.

(** C2: theme selection is last-write-wins over the three checks: the
    returned themeId is "mint" if the lowercased prompt contains a mint
    keyword, otherwise "sunset" if it contains a sunset keyword, otherwise
    "fintech", whether or not a fintech keyword matches; this holds for the
    lowercased prompt as given and for the lowercased trimmed prompt that
    the code matches against.  The prompt "AI bank for wellness", which
    contains a fintech and a mint keyword, yields "mint". *)
Theorem C2_theme_precedence (p : string) :
  themeId (gen p) = theme_by_precedence (lower p) /\
  themeId (gen p) = theme_by_precedence (lowered p) /\
  any_in (lower "AI bank for wellness") fintech_keys = true /\
  any_in (lower "AI bank for wellness") mint_keys = true /\
  themeId (gen "AI bank for wellness") = "mint".
Proof.
  rewrite gen_theme, theme_by_precedence_strip. repeat split; reflexivity.
Qed.

(** C3: the generator is total: for every prompt, the empty and the
    white-space-only ones included, it produces a result, whose themeId is
    one of "fintech", "sunset", "mint" and whose features.items is not
    empty. *)
Theorem C3_generate_total (p : string) :
  exists r : GenerateResponse,
    gen p = r /\
    In (themeId r) ["fintech"; "sunset"; "mint"] /\
    items (features (data r)) <> [].
Proof.
  exists (gen p). split; [reflexivity|]. split.
  - rewrite gen_theme. unfold theme_by_precedence.
    destruct (any_in (lowered p) mint_keys), (any_in (lowered p) sunset_keys);
      simpl; tauto.
  - rewrite gen_items, <- features_as_specified_eq.
    destruct (matched feature_rules (lowered p)); discriminate.
Qed.

(** C5: the feature list is the fixed 3-item default list, in its order,
    when the lowercased prompt matches none of the six keyword sets (as
    "hello world" does), and otherwise the features of the matching sets
    in evaluation order; it has at most 6 elements. *)
Theorem C5_feature_fallback (p : string) :
  items (features (data (gen p))) = features_as_specified (lower p) /\
  items (features (data (gen p))) = features_as_specified (lowered p) /\
  length (items (features (data (gen p)))) <= 6 /\
  any_rule_matches feature_rules (lower "hello world") = false /\
  items (features (data (gen "hello world"))) =
    ["Clean, modern UI built for conversion";
     "Lightning-fast performance and SEO";
     "Effortless setup — launch in minutes"].
Proof.
  rewrite gen_items, features_as_specified_strip.
  repeat split; try reflexivity.
  unfold features_as_specified.
  destruct (any_rule_matches feature_rules (lower p)).
  - apply (matched_length feature_rules).
  - simpl. lia.
Qed.

(** C4 (as the code has it): the name is computed by replacing newlines
    with spaces in the trimmed raw prompt, splitting on single spaces,
    dropping empty tokens, joining the first 3 tokens with a single space,
    trimming white space from both ends of the joined string, and
    title-casing the result; the name is "Your Product" exactly when the
    prompt is empty or white-space-only.  The prompt
    "  rocket ship builder extra words" yields "Rocket Ship Builder", and
    hero.title is the name followed by ": launch faster with clarity". *)
Theorem C4_name_extraction (p : string) :
  l_name (generate_locals {| prompt := p |}) = name_trimmed p /\
  (tokens_of p = [] <-> strip p = EmptyString) /\
  hero_title (hero (data (gen p))) =
    (l_name (generate_locals {| prompt := p |}) ++ ": launch faster with clarity")%string /\
  l_name (generate_locals {| prompt := "  rocket ship builder extra words" |}) =
    "Rocket Ship Builder" /\
  l_name (generate_locals {| prompt := EmptyString |}) = "Your Product" /\
  l_name (generate_locals {| prompt := "   " |}) = "Your Product".
Proof.
  split; [apply locals_name_trimmed|].
  split; [apply tokens_of_nil_iff|].
  repeat split.
Qed.

(** C4 as stated fails: on the prompt "a b <TAB> c" the third token is a
    tab, the joined candidate "a b <TAB>" is trimmed to "a b" before it is
    title-cased, and the name is "A B", not the title-cased join of the
    first three tokens. *)
Lemma C4_counterexample :
  tokens_of tab_prompt = ["a"; "b"; String TAB EmptyString; "c"] /\
  l_name (generate_locals {| prompt := tab_prompt |}) = "A B" /\
  name_as_specified tab_prompt = ("A B " ++ String TAB EmptyString)%string /\
  l_name (generate_locals {| prompt := tab_prompt |}) <>
    name_as_specified tab_prompt.
Proof. repeat split. discriminate. Qed.

(** C6: hero.subtitle is the unique tags of the subtitle-tag list, first
    occurrences kept, joined by ", " and followed by
    " platform to help you move faster" when that list is not empty, and
    "A minimal landing that explains your value clearly." otherwise; the
    list holds the tags of the matching tag rules in evaluation order.  The
    prompt "AI dashboard for analytics" yields
    "AI-powered, analytics platform to help you move faster". *)
Theorem C6_subtitle_construction (p : string) :
  let bits := l_subtitle_bits (generate_locals {| prompt := p |}) in
  bits = matched tag_rules (lower p) /\
  hero_subtitle (hero (data (gen p))) =
    match bits with
    | [] => "A minimal landing that explains your value clearly."
    | _ => (join ", " (unique_first bits) ++ " platform to help you move faster")%string
    end /\
  l_subtitle_bits (generate_locals {| prompt := "AI dashboard for analytics" |}) =
    ["AI-powered"; "analytics"] /\
  hero_subtitle (hero (data (gen "AI dashboard for analytics"))) =
    "AI-powered, analytics platform to help you move faster".
Proof.
  cbv zeta. rewrite gen_subtitle, locals_subtitle_bits.
  split; [now apply matched_strip|].
  split; [|split; reflexivity].
  destruct (matched tag_rules (lowered p)) as [|t ts]; [reflexivity|].
  now rewrite fromkeys_unique_first.
Qed.

(** C8: the whole output of the generator on a prompt is its output on the
    prompt with leading and trailing white space removed. *)
Theorem C8_strip_invariance (p : string) : gen (strip p) = gen p.
Proof.
  unfold gen, generate, generate_locals. cbn [prompt].
  rewrite !or_else_empty, strip_idem. reflexivity.
Qed.

(** C9: two prompts that are equal after lowercasing get the same themeId,
    the same features.items and the same hero.subtitle (and the constant
    call-to-action texts); hero.title is the one field left out. *)
Theorem C9_case_noninterference (p1 p2 : string) :
  lower p1 = lower p2 ->
  themeId (gen p1) = themeId (gen p2) /\
  items (features (data (gen p1))) = items (features (data (gen p2))) /\
  hero_subtitle (hero (data (gen p1))) = hero_subtitle (hero (data (gen p2))) /\
  hero_cta (hero (data (gen p1))) = hero_cta (hero (data (gen p2))) /\
  cta (data (gen p1)) = cta (data (gen p2)).
Proof.
  intros H. apply lowered_of_lower in H.
  destruct (locals_by_lowered p1 p2 H) as (T & F & S).
  repeat split; assumption.
Qed.

Lemma C9_case_noninterference_witness :
  lower "AI Dashboard for my TEAM" = lower "ai dashboard FOR MY team" /\
  themeId (gen "AI Dashboard for my TEAM") =
    themeId (gen "ai dashboard FOR MY team") /\
  items (features (data (gen "AI Dashboard for my TEAM"))) =
    items (features (data (gen "ai dashboard FOR MY team"))) /\
  hero_subtitle (hero (data (gen "AI Dashboard for my TEAM"))) =
    hero_subtitle (hero (data (gen "ai dashboard FOR MY team"))) /\
  hero_cta (hero (data (gen "AI Dashboard for my TEAM"))) =
    hero_cta (hero (data (gen "ai dashboard FOR MY team"))) /\
  cta (data (gen "AI Dashboard for my TEAM")) =
    cta (data (gen "ai dashboard FOR MY team")).
Proof.
  split; [reflexivity|].
  apply (C9_case_noninterference "AI Dashboard for my TEAM"
           "ai dashboard FOR MY team").
  reflexivity.
Defined.

(** C10: the subtitle-tag list is a sub-sequence of
    ["AI-powered"; "analytics"; "collaboration"], in that order and without
    duplicates, so hero.subtitle is one of 8 fixed, pairwise different
    strings: the default sentence or one of the 7 non-empty tag
    combinations joined in that order; each of the 8 is the subtitle of
    some prompt. *)
Theorem C10_subtitle_range (p : string) :
  let bits := l_subtitle_bits (generate_locals {| prompt := p |}) in
  is_subseq bits ["AI-powered"; "analytics"; "collaboration"] = true /\
  NoDup bits /\
  In (hero_subtitle (hero (data (gen p)))) subtitle_range /\
  length subtitle_range = 8 /\
  NoDup subtitle_range /\
  map (fun q => hero_subtitle (hero (data (gen q))))
    ["gpt metric team"; "gpt metric"; "gpt team"; "gpt";
     "metric team"; "metric"; "team"; "hello"] = subtitle_range.
Proof.
  cbv zeta. rewrite gen_subtitle, locals_subtitle_bits.
  unfold matched, tag_rules. cbn [filter map fst snd].
  assert (D : NoDup subtitle_range).
  { nodup_strings. }
  destruct (any_in (lowered p) ai_keys), (any_in (lowered p) analytics_keys),
    (any_in (lowered p) team_keys);
    (split; [reflexivity|]);
    (split; [nodup_strings|]);
    (split; [vm_compute; tauto|]);
    (split; [reflexivity|]); (split; [exact D | reflexivity]).
Qed.

(** ** The properties of the diagnostic probe *)

Module ProbeFacts.
Import Probe.

Lemma take_length (n : nat) (s : string) : String.length (take n s) <= n.
Proof.
  unfold take. revert s. induction n as [|n IH]; intros [|c s]; simpl; try lia.
  specialize (IH s). lia.
Qed.

Lemma take_prefix_of (n : nat) (s : string) : prefix_of (take n s) s.
Proof.
  unfold take, prefix_of. revert s.
  induction n as [|n IH]; intros [|c s]; simpl.
  - now exists EmptyString.
  - now exists (String c s).
  - now exists EmptyString.
  - destruct (IH s) as (rest & E). exists rest. now rewrite <- E.
Qed.

Lemma descriptive_fixed (status : string) :
  In status fixed_statuses -> descriptive status.
Proof. now left. Qed.

Lemma descriptive_connected_but_error (e : exn) :
  descriptive (connected_but_error ++ take 50 (str e))%string.
Proof.
  right. exists e. split; [apply take_length|].
  split; [apply take_prefix_of | now left].
Qed.

Lemma descriptive_error (e : exn) :
  descriptive (error_prefix ++ take 50 (str e))%string.
Proof.
  right. exists e. split; [apply take_length|].
  split; [apply take_prefix_of | now right].
Qed.

Lemma env_status (b : bool) :
  In (Some (if b then "✅ Set" else "❌ Not Set")) [Some "✅ Set"; Some "❌ Not Set"].
Proof. destruct b; simpl; tauto. Qed.

End ProbeFacts.

Import ProbeFacts.

(** C7: the handler of /test never raises to its caller.  For every
    outcome of the probe of the database collaborator (the import raises an
    ImportError or another exception, [db] is [None], the attribute [name]
    is absent or raises, listing the collections raises) and every
    environment, it returns the response; its status strings are
    descriptive: [database] is a fixed status or an error prefix followed
    by the first 50 characters at most of the exception's message,
    [database_url] and [database_name] say whether the variable is set; and
    [collections] holds the first 10 names at most of the listing, or
    nothing. *)
Theorem C7_probe_never_raises (import_db : Probe.Import) (getenv : Probe.Env) :
  exists r : Probe.Response,
    Probe.test_database import_db getenv = inr r /\
    Probe.backend r = "✅ Running" /\
    descriptive (Probe.database r) /\
    In (Probe.database_url r) [Some "✅ Set"; Some "❌ Not Set"] /\
    In (Probe.database_name r) [Some "✅ Set"; Some "❌ Not Set"] /\
    In (Probe.connection_status r) ["Not Connected"; "Connected"] /\
    length (Probe.collections r) <= 10 /\
    (Probe.collections r = [] \/
     exists db names,
       import_db = inr (Some db) /\
       Probe.list_collection_names db = inr names /\
       Probe.collections r = firstn 10 names).
Proof.
  destruct import_db as [[m|m] | [[[|[m|m]|v] [e|names]]|]];
    (eexists; split; [reflexivity|]).
  all: cbn [Probe.backend Probe.database Probe.database_url
            Probe.database_name Probe.connection_status Probe.collections].
  all: split; [reflexivity|].
  all: split; [first [ apply descriptive_connected_but_error
                     | apply descriptive_error
                     | apply descriptive_fixed; simpl; tauto ]|].
  all: split; [apply env_status|].
  all: split; [apply env_status|].
  all: split; [simpl; tauto|].
  all: split; [first [ apply firstn_le_length | simpl; lia ]|].
  all: first [ left; reflexivity
             | right; do 2 eexists; repeat split; reflexivity ].
Qed.

(** ** Further properties of the generator *)

Module AddFeat.

Lemma seen_iff (text : string) (bank : list string) :
  existsb (String.eqb text) bank = true <-> In text bank.
Proof.
  rewrite existsb_exists. split.
  - intros (x & I & E). apply String.eqb_eq in E. now subst.
  - intros I. exists text. split; [exact I | apply String.eqb_refl].
Qed.

Lemma unfold_new (text : string) (bank : list string) :
  text <> EmptyString -> ~ In text bank -> add_feat text bank = bank ++ [text].
Proof.
  intros N I. unfold add_feat.
  destruct text; [easy|]. simpl PyStr.truthy.
  destruct (existsb _ bank) eqn:E; [|reflexivity].
  apply seen_iff in E. contradiction.
Qed.

Lemma unfold_old (text : string) (bank : list string) :
  text = EmptyString \/ In text bank -> add_feat text bank = bank.
Proof.
  intros [-> | I]; unfold add_feat; [reflexivity|].
  apply seen_iff in I. rewrite I. now rewrite andb_false_r.
Qed.

Lemma cases (text : string) (bank : list string) :
  (text <> EmptyString /\ ~ In text bank) \/ text = EmptyString \/ In text bank.
Proof.
  destruct text as [|c t]; [tauto|].
  destruct (in_dec string_dec (String c t) bank); [tauto|].
  left. split; [discriminate | assumption].
Qed.

End AddFeat.

(** X1: [add_feat] keeps the feature list free of duplicates. *)
Theorem X1_add_feat_keeps_unique (text : string) (bank : list string) :
  NoDup bank -> NoDup (add_feat text bank).
Proof.
  intros D. destruct (AddFeat.cases text bank) as [[N I] | O].
  - rewrite (AddFeat.unfold_new text bank N I).
    apply NoDup_app; [exact D | repeat constructor; easy|].
    intros x Hx [<- | []]. contradiction.
  - now rewrite (AddFeat.unfold_old text bank O).
Qed.

Lemma X1_add_feat_keeps_unique_witness :
  NoDup [ai_feat; team_feat] /\ NoDup (add_feat ai_feat [ai_feat; team_feat]) /\
  NoDup (add_feat api_feat [ai_feat; team_feat]).
Proof.
  assert (D : NoDup [ai_feat; team_feat]) by nodup_strings.
  split; [exact D|].
  split; apply X1_add_feat_keeps_unique; exact D.
Defined.

(** X2: [add_feat] only ever appends: the list it is given stays as the
    front of the result, the result holds the text exactly when the text is
    not empty or was there before, adding the empty text changes nothing,
    and adding a text a second time changes nothing. *)
Theorem X2_add_feat_appends_once (text : string) (bank : list string) :
  (exists tail, add_feat text bank = bank ++ tail /\ length tail <= 1) /\
  (forall x, In x (add_feat text bank) <->
             In x bank \/ (x = text /\ text <> EmptyString)) /\
  add_feat EmptyString bank = bank /\
  add_feat text (add_feat text bank) = add_feat text bank.
Proof.
  destruct (AddFeat.cases text bank) as [[N I] | O].
  - rewrite (AddFeat.unfold_new text bank N I). repeat split.
    + exists [text]. split; [reflexivity | simpl; lia].
    + rewrite in_app_iff. simpl. intuition.
    + intros [H | [-> _]]; apply in_or_app; simpl; tauto.
    + apply AddFeat.unfold_old. right. apply in_or_app. simpl. tauto.
  - rewrite (AddFeat.unfold_old text bank O). repeat split.
    + exists []. split; [now rewrite app_nil_r | simpl; lia].
    + tauto.
    + intros [H | [-> N]]; [exact H|]. destruct O as [E | I]; [contradiction | exact I].
    + apply AddFeat.unfold_old. exact O.
Qed.

(** X3: for every prompt, features.items has no duplicate, and it never
    mixes the two sources: it is the default list, or it holds features of
    the six rules only. *)
Theorem X3_features_unique (p : string) :
  NoDup (items (features (data (gen p)))) /\
  (items (features (data (gen p))) = default_features \/
   Forall (fun f => In f (map snd feature_rules))
     (items (features (data (gen p))))).
Proof.
  rewrite gen_items, <- features_as_specified_eq.
  unfold matched, feature_rules. cbn [filter map fst snd].
  destruct (any_in (lowered p) ai_keys), (any_in (lowered p) analytics_keys),
    (any_in (lowered p) team_keys), (any_in (lowered p) mobile_keys),
    (any_in (lowered p) secure_keys), (any_in (lowered p) api_keys);
    (split; [nodup_strings|]);
    first [ left; reflexivity
          | right; repeat (apply Forall_cons; [simpl; tauto|]); apply Forall_nil ].
Qed.

(** X4: a tag is in the subtitle-tag list exactly when the feature of its
    rule is in features.items, for each of the three tag rules; and
    hero.subtitle is the default sentence exactly when no tag was
    collected. *)
Theorem X4_tag_iff_feature (p : string) :
  let bits := l_subtitle_bits (generate_locals {| prompt := p |}) in
  let fs := items (features (data (gen p))) in
  (In "AI-powered" bits <-> In ai_feat fs) /\
  (In "analytics" bits <-> In analytics_feat fs) /\
  (In "collaboration" bits <-> In team_feat fs) /\
  (hero_subtitle (hero (data (gen p))) = default_subtitle <-> bits = []).
Proof.
  cbv zeta. rewrite gen_items, <- features_as_specified_eq.
  rewrite gen_subtitle, locals_subtitle_bits.
  unfold matched, feature_rules, tag_rules. cbn [filter map fst snd].
  destruct (any_in (lowered p) ai_keys), (any_in (lowered p) analytics_keys),
    (any_in (lowered p) team_keys), (any_in (lowered p) mobile_keys),
    (any_in (lowered p) secure_keys), (any_in (lowered p) api_keys);
    repeat split; intros H; try reflexivity; try discriminate H;
    try (simpl; tauto);
    simpl in H; decompose [or] H; try discriminate; contradiction.
Qed.

(** X5: a prompt that is empty or holds white space only gets the fixed
    fallback response: the name "Your Product", the default subtitle, the
    default features and the theme "fintech". *)
Theorem X5_blank_prompt (p : string) :
  strip p = EmptyString -> gen p = blank_response.
Proof.
  intros E. unfold gen, generate, generate_locals. cbn [prompt].
  rewrite or_else_empty, E. reflexivity.
Qed.

Lemma X5_blank_prompt_witness :
  strip (String TAB (String LF "   ")) = EmptyString /\
  gen (String TAB (String LF "   ")) = blank_response.
Proof.
  split; [reflexivity | apply X5_blank_prompt; reflexivity].
Defined.

Module NameFacts.

Lemma isspace_toupper (c : ascii) : isspace (toupper c) = isspace c.
Proof. destruct c as [[] [] [] [] [] [] [] []]; reflexivity. Qed.

Lemma isspace_title_char (b : bool) (c : ascii) :
  isspace (if b then tolower c else toupper c) = isspace c.
Proof. destruct b; [apply isspace_tolower | apply isspace_toupper]. Qed.

Lemma truthy_title_from (b : bool) (s : string) :
  truthy (title_from b s) = truthy s.
Proof. now destruct s. Qed.

Lemma starts_solid_title_from (b : bool) (s : string) :
  starts_solid (title_from b s) = starts_solid s.
Proof. destruct s; simpl; [reflexivity|]. now rewrite isspace_title_char. Qed.

(** Title-casing and trimming on the right commute. *)
Lemma rstrip_title_from (b : bool) (s : string) :
  rstrip (title_from b s) = title_from b (rstrip s).
Proof.
  revert b. induction s as [|c s IH]; intros b; [reflexivity|].
  cbn [title_from].
  rewrite !rstrip_cons, IH, truthy_title_from, isspace_title_char.
  destruct (truthy (rstrip s) || negb (isspace c)); reflexivity.
Qed.

Lemma strip_title_of_stripped (s : string) :
  strip (title (strip s)) = title (strip s).
Proof.
  unfold strip at 1.
  rewrite lstrip_solid.
  - unfold title. rewrite rstrip_title_from. f_equal.
    unfold strip. apply rstrip_idem.
  - unfold title. rewrite starts_solid_title_from. apply strip_starts_solid.
Qed.

(** *** Spaces and line feeds in the name *)

Lemma count_app (c : ascii) (a b : string) :
  count_char c (a ++ b) = count_char c a + count_char c b.
Proof. induction a as [|x a IH]; simpl; [reflexivity|]. rewrite IH. lia. Qed.

Lemma count_cons (c a : ascii) (s : string) :
  count_char c (String a s) = (if Ascii.eqb a c then 1 else 0) + count_char c s.
Proof. reflexivity. Qed.

Lemma count_replace_LF (s : string) : count_char LF (replace LF " " s) = 0.
Proof.
  induction s as [|c s IH]; simpl; [reflexivity|]. rewrite IH.
  destruct (Ascii.eqb_spec c LF) as [->|N]; [reflexivity|].
  apply Ascii.eqb_neq in N. now rewrite N.
Qed.

Lemma split_pieces_free (sep d : ascii) (s : string) :
  d = sep \/ count_char d s = 0 ->
  Forall (fun t => count_char d t = 0) (split sep s).
Proof.
  induction s as [|c s IH]; intros H; simpl.
  - repeat constructor.
  - destruct (Ascii.eqb_spec c sep) as [->|N].
    + constructor; [reflexivity|]. apply IH.
      destruct H as [H|H]; [now left | right].
      simpl in H. lia.
    + assert (F : Forall (fun t => count_char d t = 0) (split sep s)).
      { apply IH. destruct H as [H|H]; [now left | right]. simpl in H. lia. }
      assert (E : Ascii.eqb c d = false).
      { destruct (Ascii.eqb_spec c d) as [->|]; [|reflexivity].
        destruct H as [H|H]; [congruence | simpl in H].
        rewrite Ascii.eqb_refl in H. discriminate H. }
      destruct (split sep s) as [|t ts]; constructor; simpl; rewrite ?E;
        try reflexivity; try constructor.
      * now inversion F.
      * now inversion F.
Qed.

Lemma in_firstn (n : nat) (l : list string) (x : string) :
  In x (firstn n l) -> In x l.
Proof.
  revert l. induction n as [|n IH]; intros [|y l]; simpl; try tauto.
  intros [H|H]; [now left | right; now apply IH].
Qed.

Lemma tokens_free (d : ascii) (p : string) :
  d = " "%char \/ d = LF ->
  Forall (fun t => count_char d t = 0) (firstn 3 (tokens_of p)).
Proof.
  intros H. unfold tokens_of.
  eapply incl_Forall.
  - intros x I. eapply incl_filter, in_firstn, I.
  - apply split_pieces_free. destruct H as [->| ->]; [now left | right].
    apply count_replace_LF.
Qed.

Lemma count_join_space (ts : list string) :
  Forall (fun t => count_char " " t = 0) ts ->
  count_char " " (join " " ts) = pred (length ts).
Proof.
  unfold join. induction ts as [|t ts IH]; intros F; [reflexivity|].
  inversion F as [|? ? Ht Fts]; subst.
  destruct ts as [|u ts]; [exact Ht|].
  change (String.concat " " (t :: u :: ts))
    with (t ++ String " " (String.concat " " (u :: ts)))%string.
  rewrite count_app, Ht, count_cons, (IH Fts). reflexivity.
Qed.

Lemma count_join_other (d : ascii) (ts : list string) :
  Ascii.eqb " " d = false ->
  Forall (fun t => count_char d t = 0) ts ->
  count_char d (join " " ts) = 0.
Proof.
  intros N. unfold join. induction ts as [|t ts IH]; intros F; [reflexivity|].
  inversion F as [|? ? Ht Fts]; subst.
  destruct ts as [|u ts]; [exact Ht|].
  change (String.concat " " (t :: u :: ts))
    with (t ++ String " " (String.concat " " (u :: ts)))%string.
  now rewrite count_app, Ht, count_cons, (IH Fts), N.
Qed.

Lemma count_lstrip_le (d : ascii) (s : string) :
  count_char d (lstrip s) <= count_char d s.
Proof.
  induction s as [|c s IH]; simpl; [lia|].
  destruct (isspace c); simpl; lia.
Qed.

Lemma count_rstrip_le (d : ascii) (s : string) :
  count_char d (rstrip s) <= count_char d s.
Proof.
  induction s as [|c s IH]; [simpl; lia|]. rewrite rstrip_cons.
  destruct (truthy (rstrip s) || negb (isspace c)); simpl; lia.
Qed.

Lemma count_strip_le (d : ascii) (s : string) :
  count_char d (strip s) <= count_char d s.
Proof.
  unfold strip. etransitivity; [apply count_rstrip_le | apply count_lstrip_le].
Qed.

Lemma title_char_space (b : bool) (c : ascii) :
  Ascii.eqb (if b then tolower c else toupper c) " " = Ascii.eqb c " ".
Proof. destruct b, c as [[] [] [] [] [] [] [] []]; reflexivity. Qed.

Lemma title_char_LF (b : bool) (c : ascii) :
  Ascii.eqb (if b then tolower c else toupper c) LF = Ascii.eqb c LF.
Proof. destruct b, c as [[] [] [] [] [] [] [] []]; reflexivity. Qed.

Lemma count_title_from (d : ascii) (b : bool) (s : string) :
  d = " "%char \/ d = LF ->
  count_char d (title_from b s) = count_char d s.
Proof.
  intros H. revert b. induction s as [|c s IH]; intros b; [reflexivity|].
  cbn [title_from count_char]. rewrite IH. f_equal.
  destruct H as [-> | ->]; [now rewrite title_char_space | now rewrite title_char_LF].
Qed.

End NameFacts.

(** X6: the name is never empty and carries no white space at its ends,
    for every prompt. *)
Theorem X6_name_trimmed_nonempty (p : string) :
  l_name (generate_locals {| prompt := p |}) <> EmptyString /\
  strip (l_name (generate_locals {| prompt := p |})) =
    l_name (generate_locals {| prompt := p |}).
Proof.
  rewrite locals_name_trimmed. unfold name_trimmed.
  pose proof (cand_truthy p) as T.
  destruct (tokens_of p) as [|t ts]; [split; [discriminate | reflexivity]|].
  split.
  - intros E. specialize (T ltac:(discriminate)).
    unfold title in E. rewrite <- (NameFacts.truthy_title_from false) in T.
    rewrite E in T. discriminate T.
  - apply NameFacts.strip_title_of_stripped.
Qed.

(** X7: the name holds three words at most: it has no line feed and at
    most two spaces, for every prompt. *)
Theorem X7_name_at_most_three_words (p : string) :
  count_char " " (l_name (generate_locals {| prompt := p |})) <= 2 /\
  count_char LF (l_name (generate_locals {| prompt := p |})) = 0.
Proof.
  rewrite locals_name_trimmed. unfold name_trimmed.
  pose proof (NameFacts.tokens_free " " p (or_introl eq_refl)) as FS.
  pose proof (NameFacts.tokens_free LF p (or_intror eq_refl)) as FL.
  pose proof (firstn_le_length 3 (tokens_of p)) as L3.
  destruct (tokens_of p) as [|t ts] eqn:E; [split; [simpl; lia | reflexivity]|].
  unfold title. rewrite !NameFacts.count_title_from by tauto.
  pose proof (NameFacts.count_strip_le " " (join " " (firstn 3 (t :: ts)))) as S1.
  pose proof (NameFacts.count_strip_le LF (join " " (firstn 3 (t :: ts)))) as S2.
  rewrite (NameFacts.count_join_space _ FS) in S1.
  rewrite (NameFacts.count_join_other LF _ eq_refl FL) in S2.
  lia.
Qed.

Module CaseFacts.

Lemma title_char_lower (b : bool) (c : ascii) :
  (if b then tolower (tolower c) else toupper (tolower c)) =
  (if b then tolower c else toupper c).
Proof. destruct b, c as [[] [] [] [] [] [] [] []]; reflexivity. Qed.

Lemma iscased_tolower (c : ascii) : iscased (tolower c) = iscased c.
Proof. destruct c as [[] [] [] [] [] [] [] []]; reflexivity. Qed.

(** Title-casing reads the lowered string only. *)
Lemma title_from_lower (b : bool) (s : string) :
  title_from b (lower s) = title_from b s.
Proof.
  revert b. induction s as [|c s IH]; intros b; [reflexivity|].
  cbn [lower title_from]. now rewrite title_char_lower, iscased_tolower, IH.
Qed.

Lemma tolower_eqb_space (c : ascii) : Ascii.eqb (tolower c) " " = Ascii.eqb c " ".
Proof. destruct c as [[] [] [] [] [] [] [] []]; reflexivity. Qed.

Lemma tolower_replace_char (c : ascii) :
  tolower (if Ascii.eqb c LF then " "%char else c) =
  (if Ascii.eqb (tolower c) LF then " "%char else tolower c).
Proof. destruct c as [[] [] [] [] [] [] [] []]; reflexivity. Qed.

Lemma lower_replace (s : string) :
  lower (replace LF " " s) = replace LF " " (lower s).
Proof.
  induction s as [|c s IH]; [reflexivity|].
  cbn [lower replace]. now rewrite tolower_replace_char, IH.
Qed.

Lemma split_lower (s : string) : split " " (lower s) = map lower (split " " s).
Proof.
  induction s as [|c s IH]; [reflexivity|].
  cbn [lower split]. rewrite tolower_eqb_space, IH.
  destruct (Ascii.eqb c " "); [reflexivity|].
  destruct (split " " s); reflexivity.
Qed.

Lemma filter_truthy_lower (l : list string) :
  filter truthy (map lower l) = map lower (filter truthy l).
Proof.
  induction l as [|t l IH]; [reflexivity|].
  simpl. rewrite truthy_lower, IH. now destruct (truthy t).
Qed.

Lemma lower_app (a b : string) : lower (a ++ b) = (lower a ++ lower b)%string.
Proof. induction a as [|c a IH]; simpl; [reflexivity | now rewrite IH]. Qed.

Lemma join_lower (l : list string) :
  join " " (map lower l) = lower (join " " l).
Proof.
  unfold join. induction l as [|t l IH]; [reflexivity|].
  destruct l as [|u l]; [reflexivity|].
  change (String.concat " " (t :: u :: l))
    with (t ++ String " " (String.concat " " (u :: l)))%string.
  rewrite lower_app. cbn [lower]. rewrite <- IH. reflexivity.
Qed.

Lemma tokens_of_lower (p : string) : tokens_of (lower p) = map lower (tokens_of p).
Proof.
  unfold tokens_of.
  now rewrite <- lower_strip, <- lower_replace, split_lower, filter_truthy_lower.
Qed.

(** The name of a prompt is the name of the lowered prompt. *)
Lemma name_trimmed_lower (p : string) : name_trimmed (lower p) = name_trimmed p.
Proof.
  unfold name_trimmed. rewrite tokens_of_lower.
  destruct (tokens_of p) as [|t ts]; [reflexivity|].
  change (map lower (t :: ts)) with (lower t :: map lower ts) at 1.
  cbv iota beta.
  change (lower t :: map lower ts) with (map lower (t :: ts)).
  rewrite firstn_map, join_lower, <- lower_strip.
  unfold title. apply title_from_lower.
Qed.

(** *** Substring search under concatenation *)

Lemma prefix_app (k s t : string) :
  String.prefix k s = true -> String.prefix k (s ++ t) = true.
Proof.
  revert s. induction k as [|a k IH]; intros s H.
  - now destruct (s ++ t)%string.
  - destruct s as [|c s]; [discriminate H|].
    change (String c s ++ t)%string with (String c (s ++ t)).
    rewrite prefix_cons in *. apply andb_prop in H as [E H].
    now rewrite E, (IH s H).
Qed.

Lemma contains_app_r (k s t : string) :
  contains k s = true -> contains k (s ++ t) = true.
Proof.
  induction s as [|c s IH]; intros H.
  - simpl in H. rewrite orb_false_r in H.
    destruct k; [|discriminate H]. now destruct t.
  - change (String c s ++ t)%string with (String c (s ++ t)).
    rewrite contains_cons in *. apply orb_prop in H as [H|H].
    + apply (prefix_app _ _ t) in H.
      change (String c s ++ t)%string with (String c (s ++ t)) in H.
      now rewrite H.
    + rewrite (IH H). apply orb_true_r.
Qed.

Lemma contains_app_l (k s t : string) :
  contains k t = true -> contains k (s ++ t) = true.
Proof.
  intros H. induction s as [|c s IH]; [exact H|].
  change (String c s ++ t)%string with (String c (s ++ t)).
  rewrite contains_cons, IH. apply orb_true_r.
Qed.

Lemma any_in_extended (ks : list string) (a p b : string) :
  any_in (lower p) ks = true -> any_in (lower (a ++ p ++ b)) ks = true.
Proof.
  unfold any_in. rewrite !existsb_exists. intros (k & I & H).
  exists k. split; [exact I|].
  rewrite !lower_app. now apply contains_app_l, contains_app_r.
Qed.

Lemma in_matched (rules : list (list string * string)) (l f : string) :
  In f (matched rules l) <->
  exists r, In r rules /\ any_in l (fst r) = true /\ snd r = f.
Proof.
  unfold matched. rewrite in_map_iff. split.
  - intros (r & E & I). apply filter_In in I as [I H]. eauto.
  - intros (r & I & H & E). exists r. split; [exact E|].
    apply filter_In. tauto.
Qed.

Lemma matched_extended (rules : list (list string * string)) (a p b f : string) :
  forallb (fun r => forallb keyword_ok (fst r)) rules = true ->
  In f (matched rules (lower p)) -> In f (matched rules (lowered (a ++ p ++ b))).
Proof.
  intros K H. rewrite (matched_strip rules _ K).
  apply in_matched in H as (r & I & M & E). apply in_matched.
  exists r. repeat split; try assumption. now apply any_in_extended.
Qed.

End CaseFacts.

(** X8: on prompts within ASCII the whole response, hero.title included,
    reads the lowercased prompt only: two prompts that are equal after
    lowercasing get the same response. *)
Theorem X8_response_case_insensitive (p1 p2 : string) :
  lower p1 = lower p2 -> gen p1 = gen p2.
Proof.
  intros H.
  assert (N : l_name (generate_locals {| prompt := p1 |}) =
              l_name (generate_locals {| prompt := p2 |})).
  { rewrite !locals_name_trimmed.
    now rewrite <- (CaseFacts.name_trimmed_lower p1), H,
      CaseFacts.name_trimmed_lower. }
  destruct (locals_by_lowered p1 p2 (lowered_of_lower p1 p2 H)) as (T & F & S).
  unfold gen, generate. cbv zeta. now rewrite N, T, F, S.
Qed.

Lemma X8_response_case_insensitive_witness :
  lower "my HEALTH app" = lower "My health APP" /\
  gen "my HEALTH app" = gen "My health APP".
Proof.
  split; [reflexivity | apply X8_response_case_insensitive; reflexivity].
Defined.

(** X9: text put before or after a prompt never removes a rule feature:
    a feature of a rule that matches the lowercased prompt is in
    features.items of every prompt that contains it. *)
Theorem X9_extension_keeps_features (a p b f : string) :
  In f (matched feature_rules (lower p)) ->
  In f (items (features (data (gen (a ++ p ++ b))))).
Proof.
  intros H. rewrite gen_items, <- features_as_specified_eq.
  apply (CaseFacts.matched_extended feature_rules a p b f eq_refl) in H.
  destruct (matched feature_rules (lowered (a ++ p ++ b))); [destruct H | exact H].
Qed.

Lemma X9_extension_keeps_features_witness :
  In api_feat (matched feature_rules (lower "Slack bot")) /\
  In api_feat (items (features (data (gen ("A " ++ "Slack bot" ++ " for teams"))))).
Proof.
  assert (H : In api_feat (matched feature_rules (lower "Slack bot"))).
  { vm_compute. tauto. }
  split; [exact H | apply X9_extension_keeps_features; exact H].
Defined.

(** X10: text put before or after a prompt never removes a subtitle tag. *)
Theorem X10_extension_keeps_tags (a p b t : string) :
  In t (l_subtitle_bits (generate_locals {| prompt := p |})) ->
  In t (l_subtitle_bits (generate_locals {| prompt := (a ++ p ++ b)%string |})).
Proof.
  rewrite !locals_subtitle_bits. intros H.
  rewrite (matched_strip tag_rules p eq_refl) in H.
  now apply (CaseFacts.matched_extended tag_rules a p b t eq_refl).
Qed.

Lemma X10_extension_keeps_tags_witness :
  In "analytics" (l_subtitle_bits (generate_locals {| prompt := "metrics" |})) /\
  In "analytics"
    (l_subtitle_bits
       (generate_locals {| prompt := ("Simple " ++ "metrics" ++ " for shops")%string |})).
Proof.
  assert (H : In "analytics"
                (l_subtitle_bits (generate_locals {| prompt := "metrics" |}))).
  { vm_compute. tauto. }
  split; [exact H | apply X10_extension_keeps_tags; exact H].
Defined.

(** X11: the theme "mint" is final: once a prompt is themed "mint", so is
    every prompt that contains it.  (The two other themes are not: a mint
    keyword added to the prompt overrides them.) *)
Theorem X11_mint_is_final (a p b : string) :
  themeId (gen p) = "mint" -> themeId (gen (a ++ p ++ b)) = "mint".
Proof.
  rewrite !gen_theme, !theme_by_precedence_strip. unfold theme_by_precedence.
  intros H.
  destruct (any_in (lower p) mint_keys) eqn:M.
  - now rewrite (CaseFacts.any_in_extended mint_keys a p b M).
  - destruct (any_in (lower p) sunset_keys); discriminate H.
Qed.

Lemma X11_mint_is_final_witness :
  themeId (gen "garden") = "mint" /\
  themeId (gen ("Fintech " ++ "garden" ++ " design bank")) = "mint".
Proof.
  split; [reflexivity | apply X11_mint_is_final; reflexivity].
Defined.

(** ** Further properties of the diagnostic probe *)

Module ProbeMore.
Import Probe.

Lemma take_short (n : nat) (s : string) : String.length s <= n -> take n s = s.
Proof.
  unfold take. revert s. induction n as [|n IH]; intros [|c s] H; simpl in *;
    try reflexivity; try lia.
  f_equal. apply IH. lia.
Qed.

Lemma firstn_short (n : nat) (l : list string) : length l <= n -> firstn n l = l.
Proof. apply firstn_all2. Qed.

End ProbeMore.

(** X12: the status "✅ Connected & Working" is returned exactly when the
    import gives a [db] object, reading its [name] does not raise and the
    listing of the collections returns. *)
Theorem X12_working_iff (import_db : Probe.Import) (getenv : Probe.Env) :
  probe_read Probe.database (Probe.test_database import_db getenv) =
    Some "✅ Connected & Working" <->
  exists name names,
    import_db = probe_db name (inr names) /\ forall e, name <> Probe.Raises e.
Proof.
  split.
  - destruct import_db as [[m|m] | [[[|[m|m]|v] [e|names]]|]]; intros H;
      try discriminate H.
    + exists Probe.Absent, names. split; [reflexivity | discriminate].
    + exists (Probe.Present v), names. split; [reflexivity | discriminate].
  - intros (name & names & -> & N).
    destruct name as [|e|v]; [reflexivity | now elim (N e) | reflexivity].
Qed.

(** X13: [connection_status] is "Connected" exactly when the import gives
    a [db] object and reading its [name] does not raise, whether or not the
    listing of the collections then fails. *)
Theorem X13_connected_iff (import_db : Probe.Import) (getenv : Probe.Env) :
  probe_read Probe.connection_status (Probe.test_database import_db getenv) =
    Some "Connected" <->
  exists name listing,
    import_db = probe_db name listing /\ forall e, name <> Probe.Raises e.
Proof.
  split.
  - destruct import_db as [[m|m] | [[[|[m|m]|v] listing]|]]; intros H;
      try (destruct listing; discriminate H); try discriminate H.
    + exists Probe.Absent, listing. split; [reflexivity | discriminate].
    + exists (Probe.Present v), listing. split; [reflexivity | discriminate].
  - intros (name & listing & -> & N).
    destruct name as [|e|v], listing; try reflexivity; now elim (N e).
Qed.

(** X14: the value of [db.name] never reaches the response: a [db] with a
    name and a [db] without one get the same response. *)
Theorem X14_name_value_not_reported (v : string)
  (listing : Probe.exn + list string) (getenv : Probe.Env) :
  Probe.test_database (probe_db (Probe.Present v) listing) getenv =
  Probe.test_database (probe_db Probe.Absent listing) getenv.
Proof. destruct listing; reflexivity. Qed.

(** X15: [database_url] and [database_name] of the response say only
    whether the environment variable holds a non-empty value, whatever the
    probe found; a variable set to the empty string counts as not set. *)
Theorem X15_env_status (import_db : Probe.Import) (getenv : Probe.Env) :
  let r := Probe.test_database import_db getenv in
  (probe_read Probe.database_url r = Some (Some "✅ Set") <->
   exists v, getenv "DATABASE_URL" = Some v /\ v <> EmptyString) /\
  (probe_read Probe.database_url r = Some (Some "❌ Not Set") <->
   getenv "DATABASE_URL" = None \/ getenv "DATABASE_URL" = Some EmptyString) /\
  (probe_read Probe.database_name r = Some (Some "✅ Set") <->
   exists v, getenv "DATABASE_NAME" = Some v /\ v <> EmptyString) /\
  (probe_read Probe.database_name r = Some (Some "❌ Not Set") <->
   getenv "DATABASE_NAME" = None \/ getenv "DATABASE_NAME" = Some EmptyString).
Proof.
  cbv zeta.
  assert (U : probe_read Probe.database_url
                (Probe.test_database import_db getenv) =
              Some (Some (if Probe.env_truthy getenv "DATABASE_URL"
                          then "✅ Set" else "❌ Not Set"))).
  { destruct import_db as [[m|m] | [[[|[m|m]|v] [e|names]]|]]; reflexivity. }
  assert (D : probe_read Probe.database_name
                (Probe.test_database import_db getenv) =
              Some (Some (if Probe.env_truthy getenv "DATABASE_NAME"
                          then "✅ Set" else "❌ Not Set"))).
  { destruct import_db as [[m|m] | [[[|[m|m]|v] [e|names]]|]]; reflexivity. }
  rewrite U, D. unfold Probe.env_truthy.
  destruct (getenv "DATABASE_URL") as [[|c u]|],
           (getenv "DATABASE_NAME") as [[|d n]|]; simpl;
    repeat split; intros H;
    try discriminate H; try reflexivity; try (right; reflexivity);
    try (left; reflexivity); try (eexists; split; [reflexivity | discriminate]);
    try (destruct H as (x & E & N); congruence);
    try (destruct H as [H|H]; discriminate H).
Qed.

(** X16: an exception message of 50 characters at most is reported whole,
    on each of the three paths that report one: the import raising (other
    than ImportError), reading [db.name] raising (other than ImportError),
    and the listing raising any exception, an ImportError included. *)
Theorem X16_short_message_whole (m : string) (getenv : Probe.Env) :
  String.length m <= 50 ->
  probe_read Probe.database
    (Probe.test_database (inl (Probe.OtherException m)) getenv) =
    Some ("❌ Error: " ++ m)%string /\
  (forall listing,
     probe_read Probe.database
       (Probe.test_database
          (probe_db (Probe.Raises (Probe.OtherException m)) listing) getenv) =
       Some ("❌ Error: " ++ m)%string) /\
  (forall e v,
     Probe.str e = m ->
     probe_read Probe.database
       (Probe.test_database (probe_db (Probe.Present v) (inl e)) getenv) =
       Some ("⚠️  Connected but Error: " ++ m)%string).
Proof.
  intros L. pose proof (ProbeMore.take_short 50 m L) as T.
  split; [|split].
  - cbn -[take String.append]. now rewrite T.
  - intros [e|names]; cbn -[take String.append]; now rewrite T.
  - intros e v E. cbn -[take String.append Probe.str]. now rewrite E, T.
Qed.

Lemma X16_short_message_whole_witness :
  String.length "timed out" <= 50 /\
  probe_read Probe.database
    (Probe.test_database
       (probe_db (Probe.Present "shop") (inl (Probe.ImportError "timed out")))
       (fun _ => None)) =
    Some "⚠️  Connected but Error: timed out".
Proof.
  assert (L : String.length "timed out" <= 50) by (simpl; lia).
  split; [exact L|].
  destruct (X16_short_message_whole "timed out" (fun _ => None) L) as (_ & _ & H).
  apply (H (Probe.ImportError "timed out") "shop"). reflexivity.
Defined.

(** X17: a listing of 10 collection names at most is returned whole, with
    the status "✅ Connected & Working". *)
Theorem X17_short_listing_whole (name : Probe.attr) (names : list string)
  (getenv : Probe.Env) :
  (forall e, name <> Probe.Raises e) ->
  length names <= 10 ->
  probe_read Probe.collections
    (Probe.test_database (probe_db name (inr names)) getenv) = Some names.
Proof.
  intros N L. pose proof (ProbeMore.firstn_short 10 names L) as F.
  destruct name as [|e|v]; [|now elim (N e)|]; cbn -[firstn]; now rewrite F.
Qed.

Lemma X17_short_listing_whole_witness :
  (forall e, Probe.Absent <> Probe.Raises e) /\
  length ["users"; "orders"] <= 10 /\
  probe_read Probe.collections
    (Probe.test_database (probe_db Probe.Absent (inr ["users"; "orders"]))
       (fun _ => None)) = Some ["users"; "orders"].
Proof.
  assert (N : forall e, Probe.Absent <> Probe.Raises e) by discriminate.
  assert (L : length ["users"; "orders"] <= 10) by (simpl; lia).
  split; [exact N | split; [exact L|]].
  apply X17_short_listing_whole; [exact N | exact L].
Defined.

(** X18: an exception raised while [db.name] is read is reported as if the
    import itself had raised it: the response is the same, so an
    ImportError of the getter gives "module not found", the connection
    stays "Not Connected" and the collections are never listed. *)
Theorem X18_name_error_as_import_error (e : Probe.exn)
  (listing : Probe.exn + list string) (getenv : Probe.Env) :
  Probe.test_database (probe_db (Probe.Raises e) listing) getenv =
  Probe.test_database (inl e) getenv.
Proof. destruct e, listing; reflexivity. Qed.

(** ** Properties of the port of the server *)

Module PortFacts.
Import Main.

Lemma lskip_blank (x : string) : blank x = true -> lskip x = EmptyString.
Proof.
  induction x as [|c x IH]; [reflexivity|]. simpl.
  intros H. apply andb_prop in H as [C B]. rewrite C. now apply IH.
Qed.









End PortFacts.

(** X19: a PORT variable that is set to the empty string or to white
    space does not fall back to 8000: the conversion raises ValueError. *)
Theorem X19_blank_port_raises (getenv : Probe.Env) (x : string) :
  getenv "PORT" = Some x -> Main.blank x = true ->
  Main.port getenv = inl (Main.ValueError x).
Proof.
  intros E B. unfold Main.port, Main.int_of_str.
  rewrite E, (PortFacts.lskip_blank x B). reflexivity.
Qed.

Lemma X19_blank_port_raises_witness :
  Main.env_port EmptyString "PORT" = Some EmptyString /\
  Main.blank EmptyString = true /\
  Main.port (Main.env_port EmptyString) = inl (Main.ValueError EmptyString).
Proof.
  split; [reflexivity | split; [reflexivity|]].
  apply X19_blank_port_raises; reflexivity.
Defined.


(** ** The name is in title case *)

Module TitleFacts.




End TitleFacts.

